(** * Bagfiles Capturer: the dashboard top level ([capturer/dash/dashapp_top.py])

    A shallow embedding of the Dash application wiring: the authentication
    gate [authorization_function], the constructor of [DashAppTop] with the
    layout it installs, the URL router [display_page] and the periodic
    callback [dash_system_timer].

    Python values are a small tagged union, exceptions are explicit results,
    and the collaborators the module imports (the account DAO, the hash
    tools, the callback manager, the page classes, the configuration) are
    the fields of one record the whole development is parametrised by. *)

From Stdlib Require Import ZArith String List Strings.Byte Floats Lia.
From stdpp Require Import gmap strings.

Set Warnings "-register-all".

Open Scope Z_scope.
Open Scope string_scope.

(** ** The Python substrate *)

Module Py.

(** [bytes] objects. *)
Definition bytes := list byte.

(** The scalar and container values a YAML document or a database row
    can hold. *)
Inductive PyVal :=
| PyNone
| PyBool (b : bool)
| PyInt (n : Z)
| PyFloat (x : float)
| PyStr (s : string)
| PyBytes (bs : bytes)
| PyList (items : list PyVal)
| PyDict (items : list (PyVal * PyVal)).

(** The part of the exception hierarchy the module can meet.  The first
    two derive from [BaseException] only, the others from [Exception]. *)
Inductive BaseException :=
| SystemExit (code : Z)
| KeyboardInterrupt
| KeyError (key : string)
| TypeError (msg : string)
| RuntimeError (msg : string).

(** [isinstance(e, Exception)], what an [except Exception] clause tests. *)
Definition isinstance_Exception (e : BaseException) : bool :=
  match e with
  | SystemExit _ | KeyboardInterrupt => false
  | KeyError _ | TypeError _ | RuntimeError _ => true
  end.

(** A call either returns a value or raises. *)
Inductive outcome (A : Type) :=
| Ret (a : A)
| Raise (e : BaseException).
Arguments Ret {A} a.
Arguments Raise {A} e.

(** Truth value testing, as [if v:] does it. *)
Definition truthy (v : PyVal) : bool :=
  match v with
  | PyNone => false
  | PyBool b => b
  | PyInt n => negb (Z.eqb n 0)
  | PyFloat x => negb (PrimFloat.eqb x 0%float)
  | PyStr s => negb (String.eqb s "")
  | PyBytes bs => match bs with nil => false | _ => true end
  | PyList l => match l with nil => false | _ => true end
  | PyDict l => match l with nil => false | _ => true end
  end.

(** Sequence repetition [s * k] for a non-negative literal [k]. *)
Fixpoint repeat_str (s : string) (k : nat) : string :=
  match k with
  | O => ""
  | S k' => s ++ repeat_str s k'
  end.

Fixpoint repeat_list {A : Type} (l : list A) (k : nat) : list A :=
  match k with
  | O => nil
  | S k' => (l ++ repeat_list l k')%list
  end.

(** The expression [v * 1000], right operand the int literal [1000]:
    integer product on ints (a bool is an int), float product after the
    literal is converted, repetition on sequences, [TypeError] on [None]
    and on a mapping. *)
Definition mul_1000 (v : PyVal) : outcome PyVal :=
  match v with
  | PyNone =>
      Raise (TypeError "unsupported operand type(s) for *: 'NoneType' and 'int'")
  | PyBool b => Ret (PyInt ((if b then 1 else 0) * 1000))
  | PyInt n => Ret (PyInt (n * 1000))
  | PyFloat x => Ret (PyFloat (PrimFloat.mul x 1000%float))
  | PyStr s => Ret (PyStr (repeat_str s 1000))
  | PyBytes bs => Ret (PyBytes (repeat_list bs 1000))
  | PyList l => Ret (PyList (repeat_list l 1000))
  | PyDict _ =>
      Raise (TypeError "unsupported operand type(s) for *: 'dict' and 'int'")
  end.

(** A mapping subscript [d[key]]: [KeyError] when the key is missing. *)
Definition getitem (d : gmap string PyVal) (key : string) : outcome PyVal :=
  match d !! key with
  | Some v => Ret v
  | None => Raise (KeyError key)
  end.

(** [io.BytesIO]: an in-memory buffer and a read position. *)
Record BytesIO := mkBytesIO { buffer : bytes; pos : nat }.

(** [type(v).__name__]. *)
Definition type_name (v : PyVal) : string :=
  match v with
  | PyNone => "NoneType"
  | PyBool _ => "bool"
  | PyInt _ => "int"
  | PyFloat _ => "float"
  | PyStr _ => "str"
  | PyBytes _ => "bytes"
  | PyList _ => "list"
  | PyDict _ => "dict"
  end.

(** [io.BytesIO(initial_bytes)]: a bytes object fills the buffer, [None]
    gives the empty buffer, anything else is not bytes-like and the
    [TypeError] names its type. *)
Definition BytesIO_new (initial_bytes : PyVal) : outcome BytesIO :=
  match initial_bytes with
  | PyBytes bs => Ret (mkBytesIO bs 0)
  | PyNone => Ret (mkBytesIO nil 0)
  | v =>
      Raise (TypeError ("a bytes-like object is required, not '"
                        ++ type_name v ++ "'"))
  end.

(** [b.read()]: everything from the position to the end; the position
    moves to the end. *)
Definition read (b : BytesIO) : bytes * BytesIO :=
  (skipn (pos b) (buffer b), mkBytesIO (buffer b) (List.length (buffer b))).

End Py.
Export Py.

(** ** Dash components *)

(** The component constructors the module calls, with the keyword
    arguments it passes.  [interval] keeps the Python value it is given. *)
Inductive Component :=
| dcc_Store (id : string)
| dcc_Interval (id : string) (interval : PyVal) (n_intervals : Z)
| dcc_Location (id : string) (refresh : bool)
| html_Div (id : option string) (children : list Component)
| html_H3 (text : string)
| html_H6 (text : string)
| dbc_NavLink (text href : string)
| dbc_NavItem (child : Component)
| dbc_NavbarSimple (children : list Component) (brand : Component)
    (brand_href : option string) (color className : string).

(** A property of a component, [(component id, property name)]. *)
Definition Dependency : Type := string * string.

(** The two closures the module registers with [app.callback]. *)
Inductive Handler := display_page_closure | dash_system_timer_closure.

Record Callback := mkCallback {
  cb_outputs : list Dependency;
  cb_inputs : list Dependency;
  cb_states : list Dependency;
  cb_function : Handler
}.

(** ** Actions, worlds and the monad of the module *)

Inductive Level := WARNING | ERROR.

(** What the module does to the objects it shares with the rest of the
    process, in order: a record handed to [logger] (kept with the exception
    its message is formatted from), an event handed to
    [CALLBACK_MANAGER.fire_event], an assignment to [APP.layout], a
    registration through [APP.callback]. *)
Inductive Action (EV : Type) :=
| Logged (level : Level) (e : BaseException)
| Fired (event : EV)
| LayoutSet (c : Component)
| CallbackAdded (cb : Callback).
Arguments Logged {EV} level e.
Arguments Fired {EV} event.
Arguments LayoutSet {EV} c.
Arguments CallbackAdded {EV} cb.

(** The world a call runs in: the state of the collaborators and the
    actions of this module so far, oldest first. *)
Record World (E EV : Type) := mkWorld {
  ext : E;
  trace : list (Action EV)
}.
Arguments mkWorld {E EV} ext trace.
Arguments ext {E EV} w.
Arguments trace {E EV} w.

(** A call of a collaborator: it may change the collaborators' state and
    it may raise. *)
Definition Ext (E A : Type) : Type := E -> outcome A * E.

(** A computation of this module. *)
Definition M (E EV A : Type) : Type := World E EV -> outcome A * World E EV.

Definition ret {E EV A} (a : A) : M E EV A := fun w => (Ret a, w).

Definition bind {E EV A B} (c : M E EV A) (k : A -> M E EV B) : M E EV B :=
  fun w =>
    match c w with
    | (Ret a, w') => k a w'
    | (Raise e, w') => (Raise e, w')
    end.

Notation "x <- c ;; k" := (bind c (fun x => k))
  (at level 100, c at next level, right associativity).
Notation "c ;; k" := (bind c (fun _ => k))
  (at level 100, right associativity).

(** A pure Python operation inside a computation. *)
Definition lift {E EV A} (r : outcome A) : M E EV A := fun w => (r, w).

(** A collaborator's call inside a computation: the trace is untouched. *)
Definition call {E EV A} (op : Ext E A) : M E EV A :=
  fun w => let (r, x) := op (ext w) in (r, mkWorld x (trace w)).

(** One more action at the end of the trace. *)
Definition emit {E EV} (a : Action EV) : M E EV unit :=
  fun w => (Ret tt, mkWorld (ext w) (trace w ++ a :: nil)).

(** [try: body / except Exception as e: handler(e)]: an exception that is
    not an instance of [Exception] passes through. *)
Definition try_except {E EV A} (body : M E EV A)
    (handler : BaseException -> M E EV A) : M E EV A :=
  fun w =>
    match body w with
    | (Ret a, w') => (Ret a, w')
    | (Raise e, w') =>
        if isinstance_Exception e then handler e w' else (Raise e, w')
    end.

(** ** The collaborators *)

(** A page object: all the router uses is its [layout()] method, which
    returns either a string or something rendered. *)
Inductive Content (R : Type) :=
| Text (s : string)
| Rendered (r : R).
Arguments Text {R} s.
Arguments Rendered {R} r.

Record PageProvider (E R : Type) := mkPage {
  layout : Ext E (Content R)
}.
Arguments mkPage {E R} layout.
Arguments layout {E R} p.

(** A stored account, the mapping [DAO.query_account] returns. *)
Abbreviation Account := (gmap string PyVal).

(** Everything [dashapp_top.py] imports from the rest of the project. *)
Record Collaborators := mkCollaborators {
  (** the state behind the collaborators: database, subscribers, pages *)
  E : Type;
  (** what a page renders *)
  R : Type;
  (** [model.CallbackTypes] and its member [TIMER] *)
  CallbackTypes : Type;
  TIMER : CallbackTypes;
  (** the loaded configuration behind [CONFIG] *)
  CONFIG : gmap string PyVal;
  (** [DAO.query_account(username)], [None] when there is no such account *)
  query_account : string -> Ext E (option Account);
  (** [DAO.count_accounts()] *)
  count_accounts : Ext E Z;
  (** [hash_tools.is_correct_password(salt, pw_hash, password)] *)
  is_correct_password : bytes -> bytes -> string -> Ext E bool;
  (** [model.CALLBACK_MANAGER.fire_event(event)] *)
  fire_event : CallbackTypes -> Ext E unit;
  (** the page classes, called with the application (part of [E]) *)
  ConsolePage : PyVal -> Ext E (PageProvider E R);
  AdminSetupPage : Ext E (PageProvider E R);
  SetupPage : Ext E (PageProvider E R);
  DBTableBrowsePage : Ext E (PageProvider E R);
  DBQueryPage : Ext E (PageProvider E R)
}.

(** ** The module *)

Section DashApp.

Variable C : Collaborators.

#[local] Abbreviation Mc := (M (E C) (CallbackTypes C)).
#[local] Abbreviation Page := (PageProvider (E C) (R C)).

(** Modelled from the spec: [YamlConfig.get] of [tools/yaml_tools.py] is
    not part of the sources; [CONFIG.get(key, default)] is taken to be the
    configured value of the key, and [default] when the key is absent. *)
Definition CONFIG_get (key : string) (default : PyVal) : PyVal :=
  match CONFIG C !! key with
  | Some v => v
  | None => default
  end.

(** [logger.warning] and [logger.error], with the exception the message
    is made from. *)
Definition logger_warning (e : BaseException) : Mc unit := emit (Logged WARNING e).
Definition logger_error (e : BaseException) : Mc unit := emit (Logged ERROR e).

(** [model.CALLBACK_MANAGER.fire_event(event)]: the call is recorded, then
    the manager runs. *)
Definition CALLBACK_MANAGER_fire_event (event : CallbackTypes C) : Mc unit :=
  emit (Fired event);; call (fire_event C event).

(** *** [authorization_function] *)

(** [b = io.BytesIO(account[key])] followed by [b.read()]. *)
Definition stored_bytes (account : Account) (key : string) : outcome bytes :=
  match getitem account key with
  | Raise e => Raise e
  | Ret v =>
      match BytesIO_new v with
      | Raise e => Raise e
      | Ret b => Ret (fst (read b))
      end
  end.

(** The [try] block: the salt from ['misc'], then the hash from
    ['password']. *)
Definition read_credentials (account : Account) : Mc (bytes * bytes) :=
  salt <- lift (stored_bytes account "misc");;
  correct <- lift (stored_bytes account "password");;
  ret (salt, correct).

(** The [return False] of the [except] clause leaves the function: the
    [try] statement yields either the two buffers or the value returned. *)
Definition authorization_function (username password : string) : Mc bool :=
  account <- call (query_account C username);;
  match account with
  | None => ret false
  | Some account =>
      r <- try_except
             (sc <- read_credentials account;; ret (inl sc))
             (fun e => logger_warning e;; ret (inr false));;
      match r with
      | inr returned => ret returned
      | inl (salt, correct) =>
          ok <- call (is_correct_password C salt correct password);;
          if ok then ret true else ret false
      end
  end.

(** *** [DashAppTop] *)

(** [dash_auth.BasicAuth(APP, auth_func=...)]. *)
Record BasicAuth := mkBasicAuth {
  auth_func : string -> string -> Mc bool
}.

Record DashAppTop := mkDashAppTop {
  DASH_HOST : PyVal;
  DASH_PORT : PyVal;
  SYSTEM_TIMER : PyVal;
  auth : option BasicAuth;
  _console_page : Page;
  _setup_page : Page;
  _schedule_page : Page;
  _db_browse_page : Page;
  _db_query_page : Page;
  _navbar_with_menu : Component;
  _navbar_simple : Component;
  _nav_placeholder : Component
}.

Definition navbar_with_menu : Component :=
  dbc_NavbarSimple
    (dbc_NavItem (dbc_NavLink "Console" "/page_console")
     :: dbc_NavItem (dbc_NavLink "Setup" "/page_setup")
     :: dbc_NavItem (dbc_NavLink "Schedule" "/page_schedule")
     :: dbc_NavItem (dbc_NavLink "DB" "/page_db_browser")
     :: dbc_NavItem (dbc_NavLink "Query" "/page_db_query")
     :: nil)
    (html_Div None
       (html_H3 "Bagfiles Capturer"
        :: html_H6 "Robotics and Autonomous Systems Group, REF, RI, Queensland University of Technology"
        :: nil))
    (Some "/page_console") "#cce6ff" "fs-4 text".

Definition navbar_simple : Component :=
  dbc_NavbarSimple nil (html_H3 "Bagfiles Capturer") None "#99cccc" "fs-4 text".

Definition nav_placeholder : Component := html_Div (Some "nav_placeholder") nil.

(** The value assigned to [self.app.layout]. *)
Definition app_layout (system_timer : PyVal) : Component :=
  html_Div None
    (dcc_Store "dashapp_interval_store"
     :: dcc_Interval "system_interval" system_timer 0
     :: dcc_Location "url" false
     :: nav_placeholder
     :: html_Div (Some "page_content") nil
     :: nil).

(** The [interval] of the [dcc.Interval] with the given id among the
    children of a [html.Div]. *)
Definition interval_of (id : string) (c : Component) : option PyVal :=
  match c with
  | html_Div _ children =>
      List.fold_right
        (fun child found =>
           match child with
           | dcc_Interval id' interval _ =>
               if String.eqb id' id then Some interval else found
           | _ => found
           end)
        None children
  | _ => None
  end.

Definition display_page_callback : Callback :=
  mkCallback
    (("page_content", "children") :: ("nav_placeholder", "children") :: nil)
    (("url", "pathname") :: nil)
    nil
    display_page_closure.

Definition dash_system_timer_callback : Callback :=
  mkCallback
    (("dashapp_interval_store", "data") :: nil)
    (("system_interval", "n_intervals") :: nil)
    (("url", "pathname") :: nil)
    dash_system_timer_closure.

(** [_define_app] reads [self.SYSTEM_TIMER] and assigns the three
    navigation attributes, here its argument and its result. *)
Definition _define_app (system_timer : PyVal)
    : Mc (Component * Component * Component) :=
  emit (LayoutSet (app_layout system_timer));;
  emit (CallbackAdded display_page_callback);;
  emit (CallbackAdded dash_system_timer_callback);;
  ret (navbar_with_menu, navbar_simple, nav_placeholder).

(** The authentication set-up of [__init__]. *)
Definition setup_authentication : Mc (option BasicAuth) :=
  if truthy (CONFIG_get "capturer.web.auth" (PyBool false)) then
    n <- call (count_accounts C);;
    if n >? 0 then ret (Some (mkBasicAuth authorization_function))
    else ret None
  else ret None.

Definition __init__ : Mc DashAppTop :=
  let host := CONFIG_get "capturer.web.host" PyNone in
  let port := CONFIG_get "capturer.web.port" PyNone in
  system_timer <- lift (mul_1000 (CONFIG_get "capturer.system.timer" (PyInt 1)));;
  auth <- setup_authentication;;
  console_page <- call (ConsolePage C (CONFIG_get "capturer.console.refresh" (PyInt 5)));;
  setup_page <- call (AdminSetupPage C);;
  schedule_page <- call (SetupPage C);;
  db_browse_page <- call (DBTableBrowsePage C);;
  db_query_page <- call (DBQueryPage C);;
  navs <- _define_app system_timer;;
  let '(with_menu, simple, placeholder) := navs in
  ret (mkDashAppTop host port system_timer auth
         console_page setup_page schedule_page db_browse_page db_query_page
         with_menu simple placeholder).

(** *** The router *)

(** [pathname == literal]: only a string can equal a string. *)
Definition eq_str (pathname : PyVal) (literal : string) : bool :=
  match pathname with
  | PyStr s => String.eqb s literal
  | _ => false
  end.

(** The body of the [try] statement: the value assigned to
    [page_content]. *)
Definition dispatch (self : DashAppTop) (pathname : PyVal) : Mc (Content (R C)) :=
  if eq_str pathname "/page_console" then call (layout (_console_page self))
  else if eq_str pathname "/page_setup" then call (layout (_setup_page self))
  else if eq_str pathname "/page_schedule" then call (layout (_schedule_page self))
  else if eq_str pathname "/page_db_browser" then call (layout (_db_browse_page self))
  else if eq_str pathname "/page_db_query" then call (layout (_db_query_page self))
  else if eq_str pathname "/" then call (layout (_console_page self))
  else ret (Text "404 Page Error! Please choose a link").

(** When the handler runs, [page_content] still holds its initial value. *)
Definition display_page (self : DashAppTop) (pathname : PyVal)
    : Mc (Content (R C) * Component) :=
  let page_content := Text "" in
  let nav_content := _navbar_with_menu self in
  page_content <-
    try_except (dispatch self pathname)
      (fun e => logger_error e;; ret page_content);;
  ret (page_content, nav_content).

Definition _display_page (self : DashAppTop) := display_page self.

(** *** The system timer *)

(** The one-element tuple [(n,)] is a one-element list. *)
Definition dash_system_timer (self : DashAppTop) (n pathname : PyVal)
    : Mc (list PyVal) :=
  CALLBACK_MANAGER_fire_event (TIMER C);;
  ret (n :: nil).

Definition _dash_system_timer (self : DashAppTop) := dash_system_timer self.

(** A collaborator's call that returns, whatever the state. *)
Definition returns {A : Type} (op : Ext (E C) A) : Prop :=
  forall x, exists a x', op x = (Ret a, x').

(** The paths the router tells apart, each with the page object whose
    [layout()] it calls: the registry form of the [if]/[elif] chain. *)
Definition page_registry (self : DashAppTop) : list (PyVal * Page) :=
  (PyStr "/page_console", _console_page self)
  :: (PyStr "/page_setup", _setup_page self)
  :: (PyStr "/page_schedule", _schedule_page self)
  :: (PyStr "/page_db_browser", _db_browse_page self)
  :: (PyStr "/page_db_query", _db_query_page self)
  :: (PyStr "/", _console_page self)
  :: nil.

End DashApp.

Arguments dispatch {C} self pathname.
Arguments display_page {C} self pathname.
Arguments _display_page {C} self.
Arguments dash_system_timer {C} self n pathname.
Arguments _dash_system_timer {C} self.
Arguments page_registry {C} self.
Arguments returns {C A} op.
Arguments DASH_HOST {C} d.
Arguments DASH_PORT {C} d.
Arguments SYSTEM_TIMER {C} d.
Arguments auth {C} d.
Arguments auth_func {C} b.
Arguments _console_page {C} d.
Arguments _setup_page {C} d.
Arguments _schedule_page {C} d.
Arguments _db_browse_page {C} d.
Arguments _db_query_page {C} d.
Arguments _navbar_with_menu {C} d.
Arguments _navbar_simple {C} d.
Arguments _nav_placeholder {C} d.

(** ** A concrete deployment

    Two stored accounts, a toy verification routine, a counter of delivered
    events and five pages, one of which fails to render. *)

Module Demo.

Inductive Event := Timer | Shutdown.

Fixpoint bytes_eqb (a b : bytes) : bool :=
  match a, b with
  | nil, nil => true
  | x :: a', y :: b' => Byte.eqb x y && bytes_eqb a' b'
  | _, _ => false
  end.

(** The stored hash is the salt followed by the password. *)
Definition toy_hash (salt : bytes) (password : string) : bytes :=
  (salt ++ list_byte_of_string password)%list.

Definition alice : Account :=
  {[ "misc" := PyBytes (list_byte_of_string "NaCl");
     "password" := PyBytes (toy_hash (list_byte_of_string "NaCl") "wonderland") ]}.

(** An account whose salt was stored as text. *)
Definition mallory : Account :=
  {[ "misc" := PyStr "NaCl";
     "password" := PyBytes (list_byte_of_string "x") ]}.

Definition accounts : gmap string Account :=
  {[ "alice" := alice; "mallory" := mallory ]}.

Definition page (name : string) : PageProvider nat string :=
  mkPage (fun x => (Ret (Rendered name), x)).

Definition broken_page : PageProvider nat string :=
  mkPage (fun x => (Raise (RuntimeError "no schedule table"), x)).

Definition config : gmap string PyVal :=
  {[ "capturer.web.auth" := PyBool true;
     "capturer.system.timer" := PyInt 2 ]}.

(** The state of the collaborators is the number of events delivered. *)
Definition collaborators (cfg : gmap string PyVal) : Collaborators :=
  mkCollaborators nat string Event Timer cfg
    (fun username x => (Ret (accounts !! username), x))
    (fun x => (Ret 2, x))
    (fun salt correct password x =>
       (Ret (bytes_eqb correct (toy_hash salt password)), x))
    (fun _ x => (Ret tt, S x))
    (fun _ x => (Ret (page "console"), x))
    (fun x => (Ret (page "setup"), x))
    (fun x => (Ret broken_page, x))
    (fun x => (Ret (page "db"), x))
    (fun x => (Ret (page "query"), x)).

Definition C := collaborators config.

(** The same deployment with nothing configured. *)
Definition C0 := collaborators ∅.

Definition w0 : World nat Event := mkWorld 0%nat nil.

(** The world after the application object is built. *)
Definition w1 : World nat Event :=
  mkWorld 0%nat
    (LayoutSet (app_layout (PyInt 2000))
     :: CallbackAdded display_page_callback
     :: CallbackAdded dash_system_timer_callback
     :: nil).

(** The application object of the deployment, as [__init__] builds it. *)
Definition self : DashAppTop C :=
  mkDashAppTop C PyNone PyNone (PyInt 2000)
    (Some (mkBasicAuth C (authorization_function C)))
    (page "console") (page "setup") broken_page (page "db") (page "query")
    navbar_with_menu navbar_simple nav_placeholder.

(** The application object of the deployment with nothing configured. *)
Definition self0 : DashAppTop C0 :=
  mkDashAppTop C0 PyNone PyNone (PyInt 1000) None
    (page "console") (page "setup") broken_page (page "db") (page "query")
    navbar_with_menu navbar_simple nav_placeholder.

Definition w1_0 : World nat Event :=
  mkWorld 0%nat
    (LayoutSet (app_layout (PyInt 1000))
     :: CallbackAdded display_page_callback
     :: CallbackAdded dash_system_timer_callback
     :: nil).

End Demo.

(** ** The life cycle: [start] and [stop] *)

(** What [start] and [stop] call outside the project: the ROS log, the
    clock and the blocking server loop of the application. *)
Record Runtime (E : Type) := mkRuntime {
  (** [rospy.loginfo(msg)] *)
  rospy_loginfo : string -> Ext E unit;
  (** [time.sleep(secs)] *)
  time_sleep : Z -> Ext E unit;
  (** [app.run_server(host=..., port=..., debug=...)], which returns when
      the server loop ends, with whatever it returns *)
  run_server : PyVal -> PyVal -> PyVal -> Ext E PyVal
}.
Arguments rospy_loginfo {E} r msg.
Arguments time_sleep {E} r secs.
Arguments run_server {E} r host port debug.

Section Lifecycle.

Variable C : Collaborators.
Variable RT : Runtime (E C).

#[local] Abbreviation Mc := (M (E C) (CallbackTypes C)).

(** [sys.exit(code)] raises [SystemExit]. *)
Definition sys_exit {A : Type} (code : Z) : Mc A :=
  fun w => (Raise (SystemExit code), w).

(** [start] has no [return] statement: what [run_server] returns is
    dropped and the call returns [None]. *)
Definition start (self : DashAppTop C) : Mc unit :=
  call (rospy_loginfo RT "operation agent: starting the dash flask server");;
  call (run_server RT (DASH_HOST self) (DASH_PORT self)
          (CONFIG_get C "capturer.web.debug.mode" (PyBool true)));;
  ret tt.

(** [stop(self, *args, **kwargs)]: the arguments a signal handler is
    given are not looked at. *)
Definition stop (self : DashAppTop C) (args : list PyVal)
    (kwargs : list (string * PyVal)) : Mc unit :=
  call (rospy_loginfo RT "operation agent: the dash flask server is being shutdown");;
  call (time_sleep RT 2);;
  sys_exit 0.

(** The framework delivering a run of ticks to the timer callback, one
    call per tick, stopping at the first call that raises. *)
Fixpoint ticks (self : DashAppTop C) (ns : list PyVal) (pathname : PyVal)
    : Mc (list (list PyVal)) :=
  match ns with
  | nil => ret nil
  | n :: ns' =>
      r <- dash_system_timer self n pathname;;
      rs <- ticks self ns' pathname;;
      ret (r :: rs)
  end.

End Lifecycle.

Arguments start {C} RT self.
Arguments stop {C} RT self args kwargs.
Arguments ticks {C} self ns pathname.

(** ** Reading the components back *)

(** The targets of a navigation bar: its brand link, then the links of
    its items. *)
Definition nav_hrefs (navbar : Component) : list string :=
  match navbar with
  | dbc_NavbarSimple children _ brand_href _ _ =>
      (match brand_href with Some href => href :: nil | None => nil end
       ++ flat_map
            (fun item =>
               match item with
               | dbc_NavItem (dbc_NavLink _ href) => href :: nil
               | _ => nil
               end)
            children)%list
  | _ => nil
  end.

(** The ids of a component and of everything under it. *)
Fixpoint component_ids (c : Component) : list string :=
  match c with
  | dcc_Store id => id :: nil
  | dcc_Interval id _ _ => id :: nil
  | dcc_Location id _ => id :: nil
  | html_Div id children =>
      (match id with Some i => i :: nil | None => nil end
       ++ flat_map component_ids children)%list
  | html_H3 _ | html_H6 _ | dbc_NavLink _ _ => nil
  | dbc_NavItem child => component_ids child
  | dbc_NavbarSimple children brand _ _ _ =>
      (flat_map component_ids children ++ component_ids brand)%list
  end.

(** Every component a callback reads or writes. *)
Definition cb_dependencies (cb : Callback) : list Dependency :=
  (cb_outputs cb ++ cb_inputs cb ++ cb_states cb)%list.

(** ** Deployments that fail *)

Module Outage.

(** An account whose salt column is NULL. *)
Definition carol : Account :=
  {[ "misc" := PyNone;
     "password" := PyBytes (Demo.toy_hash nil "rabbit") ]}.

(** A deployment like [Demo.collaborators], with its configuration, its
    account lookup, its account count and its schedule page left open. *)
Definition collaborators (cfg : gmap string PyVal)
    (query : string -> Ext nat (option Account)) (count : Ext nat Z)
    (schedule : Ext nat (PageProvider nat string)) : Collaborators :=
  mkCollaborators nat string Demo.Event Demo.Timer cfg
    query count
    (fun salt correct password x =>
       (Ret (Demo.bytes_eqb correct (Demo.toy_hash salt password)), x))
    (fun _ x => (Ret tt, S x))
    (fun _ x => (Ret (Demo.page "console"), x))
    (fun x => (Ret (Demo.page "setup"), x))
    schedule
    (fun x => (Ret (Demo.page "db"), x))
    (fun x => (Ret (Demo.page "query"), x)).

Definition db_locked {A : Type} : Ext nat A :=
  fun x => (Raise (RuntimeError "database is locked"), x).

(** The database does not answer. *)
Definition C_locked : Collaborators :=
  collaborators Demo.config (fun _ => db_locked) db_locked
    (fun x => (Ret Demo.broken_page, x)).

(** Nothing configured, and the database does not answer. *)
Definition C_locked_unconfigured : Collaborators :=
  collaborators ∅ (fun _ => db_locked) db_locked
    (fun x => (Ret Demo.broken_page, x)).

(** The salt column of the one account is NULL. *)
Definition C_null_salt : Collaborators :=
  collaborators Demo.config (fun _ x => (Ret (Some carol), x)) (fun x => (Ret 1, x))
    (fun x => (Ret Demo.broken_page, x)).

(** The schedule page cannot be built. *)
Definition C_no_schedule : Collaborators :=
  collaborators Demo.config (fun username x => (Ret (Demo.accounts !! username), x))
    (fun x => (Ret 2, x))
    (fun x => (Raise (RuntimeError "no schedule table"), x)).

(** The timer is configured as null. *)
Definition C_null_timer : Collaborators :=
  collaborators {[ "capturer.system.timer" := PyNone ]}
    (fun username x => (Ret (Demo.accounts !! username), x))
    (fun x => (Ret 2, x))
    (fun x => (Ret Demo.broken_page, x)).

(** A page interrupted from the keyboard while it renders. *)
Definition interrupted_page : PageProvider nat string :=
  mkPage (fun x => (Raise KeyboardInterrupt, S x)).

Definition self_interrupted : DashAppTop Demo.C :=
  mkDashAppTop Demo.C PyNone PyNone (PyInt 2000) None
    (Demo.page "console") interrupted_page Demo.broken_page
    (Demo.page "db") (Demo.page "query")
    navbar_with_menu navbar_simple nav_placeholder.

(** A runtime that counts what it is asked: a log line is 1, a second of
    sleep is 10, a run of the server is 100. *)
Definition runtime : Runtime nat :=
  mkRuntime nat
    (fun _ x => (Ret tt, (x + 1)%nat))
    (fun secs x => (Ret tt, (x + 10 * Z.to_nat secs)%nat))
    (fun _ _ _ x => (Ret (PyStr "server loop ended"), (x + 100)%nat)).

(** A deployment with its endpoint configured. *)
Definition config_served : gmap string PyVal :=
  {[ "capturer.web.host" := PyStr "0.0.0.0";
     "capturer.web.port" := PyInt 8050 ]}.

Definition C_served : Collaborators := Demo.collaborators config_served.

Definition self_served : DashAppTop C_served :=
  mkDashAppTop C_served (PyStr "0.0.0.0") (PyInt 8050) (PyInt 1000) None
    (Demo.page "console") (Demo.page "setup") Demo.broken_page
    (Demo.page "db") (Demo.page "query")
    navbar_with_menu navbar_simple nav_placeholder.

End Outage.

(** ** Running computations *)

Section Running.

Context {E EV : Type}.

Lemma call_eq {A} (op : Ext E A) (w : World E EV) r x :
  op (ext w) = (r, x) -> call op w = (r, mkWorld x (trace w)).
Proof. intros H. unfold call. now rewrite H. Qed.

End Running.

(** Unfolds the monad's operations down to the calls of the collaborators. *)
Ltac run :=
  cbv beta delta [bind ret lift call emit try_except
                  logger_warning logger_error CALLBACK_MANAGER_fire_event];
  cbn [ext trace fst snd].

(** ** The authentication gate *)

Section AuthGate.

Variable C : Collaborators.

#[local] Abbreviation W := (World (E C) (CallbackTypes C)).

(** Reading a stored field raises nothing beyond [KeyError] and
    [TypeError], which [except Exception] catches. *)
Lemma stored_bytes_raises_Exception (account : Account) key e :
  stored_bytes account key = Raise e -> isinstance_Exception e = true.
Proof.
  unfold stored_bytes, getitem.
  destruct (account !! key) as [v|]; [|intros [= <-]; reflexivity].
  destruct v; cbn; intros [= <-]; reflexivity.
Qed.

(** The [try] block either yields both buffers or raises the first
    failure, and leaves the world alone. *)
Lemma read_credentials_eq (account : Account) (w : W) :
  read_credentials C account w =
    (match stored_bytes account "misc" with
     | Raise e => Raise e
     | Ret salt =>
         match stored_bytes account "password" with
         | Raise e => Raise e
         | Ret correct => Ret (salt, correct)
         end
     end, w).
Proof.
  unfold read_credentials. run.
  destruct (stored_bytes account "misc"); [|reflexivity].
  now destruct (stored_bytes account "password").
Qed.

(** What a call does, case by case: the lookup, then the two fields, then
    the verification routine. *)
Lemma authorization_function_eq (username password : string) (w : W) :
  authorization_function C username password w =
    match query_account C username (ext w) with
    | (Raise e, x1) => (Raise e, mkWorld x1 (trace w))
    | (Ret None, x1) => (Ret false, mkWorld x1 (trace w))
    | (Ret (Some account), x1) =>
        match read_credentials C account (mkWorld x1 (trace w)) with
        | (Ret (salt, correct), _) =>
            (fst (is_correct_password C salt correct password x1),
             mkWorld (snd (is_correct_password C salt correct password x1)) (trace w))
        | (Raise e, _) =>
            if isinstance_Exception e
            then (Ret false, mkWorld x1 (trace w ++ Logged WARNING e :: nil))
            else (Raise e, mkWorld x1 (trace w))
        end
    end.
Proof.
  unfold authorization_function.
  unfold bind at 1. unfold call at 1.
  destruct (query_account C username (ext w)) as [[[account|]|e] x1];
    [|reflexivity|reflexivity].
  unfold bind at 1. unfold try_except. unfold bind at 1.
  rewrite read_credentials_eq.
  destruct (stored_bytes account "misc") as [salt|e1].
  - destruct (stored_bytes account "password") as [correct|e2].
    + run.
      now destruct (is_correct_password C salt correct password x1) as [[[]|e] x2].
    + now destruct (isinstance_Exception e2).
  - now destruct (isinstance_Exception e1).
Qed.

(** C1. When the account lookup returns an account and both stored fields
    parse as byte buffers, [authorization_function] returns [True] exactly
    when [is_correct_password], called with the stored salt, the stored
    hash and the supplied password, returns [True]; more precisely it
    returns whatever that routine returns, and logs nothing. *)
Theorem authorization_iff_password_correct
    (username password : string) (w : W)
    (account : Account) (x1 : E C) (salt correct : bytes) :
  query_account C username (ext w) = (Ret (Some account), x1) ->
  stored_bytes account "misc" = Ret salt ->
  stored_bytes account "password" = Ret correct ->
  (fst (authorization_function C username password w) = Ret true <->
   fst (is_correct_password C salt correct password x1) = Ret true)
  /\ authorization_function C username password w =
       (fst (is_correct_password C salt correct password x1),
        mkWorld (snd (is_correct_password C salt correct password x1)) (trace w)).
Proof.
  intros Hq Hs Hc.
  rewrite authorization_function_eq, Hq, read_credentials_eq, Hs, Hc.
  split; reflexivity.
Qed.

(** C2. When the account lookup returns an account whose stored salt or
    hash does not parse as a byte buffer, [authorization_function] logs one
    warning and returns [False]; it does not return [True]. *)
Theorem authorization_fails_closed
    (username password : string) (w : W) (account : Account) (x1 : E C) :
  query_account C username (ext w) = (Ret (Some account), x1) ->
  (exists e, stored_bytes account "misc" = Raise e) \/
  (exists e, stored_bytes account "password" = Raise e) ->
  (exists e, authorization_function C username password w =
               (Ret false, mkWorld x1 (trace w ++ Logged WARNING e :: nil)))
  /\ fst (authorization_function C username password w) <> Ret true.
Proof.
  intros Hq Hbad.
  rewrite authorization_function_eq, Hq, read_credentials_eq.
  destruct (stored_bytes account "misc") as [salt|e1] eqn:Hs.
  - destruct (stored_bytes account "password") as [correct|e2] eqn:Hc.
    + destruct Hbad as [[e He]|[e He]]; discriminate.
    + rewrite (stored_bytes_raises_Exception _ _ _ Hc).
      split; [now exists e2|discriminate].
  - rewrite (stored_bytes_raises_Exception _ _ _ Hs).
    split; [now exists e1|discriminate].
Qed.

(** C3. When the account lookup returns [None], [authorization_function]
    returns [False] (and logs nothing). *)
Theorem authorization_denies_missing_account
    (username password : string) (w : W) (x1 : E C) :
  query_account C username (ext w) = (Ret None, x1) ->
  authorization_function C username password w =
    (Ret false, mkWorld x1 (trace w)).
Proof.
  intros Hq. now rewrite authorization_function_eq, Hq.
Qed.

End AuthGate.

Lemma authorization_iff_password_correct_witness :
  fst (authorization_function Demo.C "alice" "wonderland" Demo.w0) = Ret true.
Proof.
  apply (proj1 (authorization_iff_password_correct Demo.C
                  "alice" "wonderland" Demo.w0 Demo.alice 0%nat
                  (list_byte_of_string "NaCl")
                  (Demo.toy_hash (list_byte_of_string "NaCl") "wonderland")
                  eq_refl eq_refl eq_refl)).
  reflexivity.
Defined.

Lemma authorization_fails_closed_witness :
  exists e, authorization_function Demo.C "mallory" "x" Demo.w0 =
              (Ret false, mkWorld 0%nat (Logged WARNING e :: nil)).
Proof.
  apply (authorization_fails_closed Demo.C "mallory" "x" Demo.w0 Demo.mallory 0%nat
           eq_refl).
  left. eexists. reflexivity.
Defined.

Lemma authorization_denies_missing_account_witness :
  authorization_function Demo.C "bob" "secret" Demo.w0 = (Ret false, Demo.w0).
Proof.
  apply (authorization_denies_missing_account Demo.C "bob" "secret" Demo.w0 0%nat).
  reflexivity.
Defined.

(** ** Construction *)

Section Construction.

Variable C : Collaborators.

#[local] Abbreviation W := (World (E C) (CallbackTypes C)).

(** The authentication set-up, case by case. *)
Lemma setup_authentication_eq (w : W) :
  setup_authentication C w =
    if truthy (CONFIG_get C "capturer.web.auth" (PyBool false)) then
      match count_accounts C (ext w) with
      | (Ret n, x) =>
          (Ret (if n >? 0 then Some (mkBasicAuth C (authorization_function C))
                else None),
           mkWorld x (trace w))
      | (Raise e, x) => (Raise e, mkWorld x (trace w))
      end
    else (Ret None, w).
Proof.
  unfold setup_authentication.
  destruct (truthy _); [|reflexivity].
  run. destruct (count_accounts C (ext w)) as [[n|e] x]; [|reflexivity].
  now destruct (n >? 0).
Qed.

(** [_define_app] installs the layout around the timer it is given,
    registers the two callbacks and hands back the three navigation
    components. *)
Lemma define_app_eq (system_timer : PyVal) (w : W) :
  _define_app C system_timer w =
    (Ret (navbar_with_menu, navbar_simple, nav_placeholder),
     mkWorld (ext w)
       (trace w ++ LayoutSet (app_layout system_timer)
                :: CallbackAdded display_page_callback
                :: CallbackAdded dash_system_timer_callback :: nil)).
Proof.
  unfold _define_app. run. now rewrite <- !app_assoc.
Qed.

(** Destructs the next call of a collaborator in the goal's hypothesis. *)
Ltac next_call H :=
  match type of H with
  | context [call ?op ?w] =>
      let r := fresh "r" in
      let x := fresh "x" in
      let Hop := fresh "Hop" in
      destruct (op (ext w)) as [r x] eqn:Hop;
      rewrite (call_eq op w r x Hop) in H;
      destruct r; [|discriminate H]; cbn [ext trace] in H
  end.

(** What a successful construction leaves behind. *)
Lemma init_inv (w : W) (self : DashAppTop C) (w' : W) :
  __init__ C w = (Ret self, w') ->
  mul_1000 (CONFIG_get C "capturer.system.timer" (PyInt 1)) = Ret (SYSTEM_TIMER self)
  /\ (exists wa, setup_authentication C w = (Ret (auth self), wa))
  /\ DASH_HOST self = CONFIG_get C "capturer.web.host" PyNone
  /\ DASH_PORT self = CONFIG_get C "capturer.web.port" PyNone
  /\ _navbar_with_menu self = navbar_with_menu
  /\ _navbar_simple self = navbar_simple
  /\ _nav_placeholder self = nav_placeholder
  /\ trace w' =
       (trace w ++ LayoutSet (app_layout (SYSTEM_TIMER self))
                :: CallbackAdded display_page_callback
                :: CallbackAdded dash_system_timer_callback :: nil)%list.
Proof.
  unfold __init__. intros H.
  unfold bind at 1 in H. unfold lift in H.
  destruct (mul_1000 _) as [timer|e] eqn:Htimer; [|discriminate H].
  unfold bind at 1 in H.
  destruct (setup_authentication C w) as [[a|e] wa] eqn:Hauth; [|discriminate H].
  assert (Hwa : trace wa = trace w).
  { rewrite setup_authentication_eq in Hauth.
    destruct (truthy _); [|now injection Hauth as _ <-].
    destruct (count_accounts C (ext w)) as [[n|e] x]; [|discriminate Hauth].
    now injection Hauth as _ <-. }
  do 5 (unfold bind at 1 in H; next_call H).
  unfold bind at 1 in H. rewrite define_app_eq in H.
  cbn [ext trace] in H. unfold ret in H. injection H as <- <-.
  cbn. rewrite Hwa. repeat split; try reflexivity. now exists wa.
Qed.

(** The constructor returns as soon as the timer value can be multiplied
    and the collaborators it calls return. *)
Lemma init_returns (w : W) (timer : PyVal) :
  mul_1000 (CONFIG_get C "capturer.system.timer" (PyInt 1)) = Ret timer ->
  returns (count_accounts C) ->
  returns (ConsolePage C (CONFIG_get C "capturer.console.refresh" (PyInt 5))) ->
  returns (AdminSetupPage C) ->
  returns (SetupPage C) ->
  returns (DBTableBrowsePage C) ->
  returns (DBQueryPage C) ->
  exists self w', __init__ C w = (Ret self, w').
Proof.
  intros Htimer Hcount H1 H2 H3 H4 H5.
  assert (Hauth : exists a wa, setup_authentication C w = (Ret a, wa)).
  { rewrite setup_authentication_eq.
    destruct (truthy _); [|now eauto].
    destruct (Hcount (ext w)) as (n & x & ->). now eauto. }
  destruct Hauth as (a & wa & Ha).
  destruct (H1 (ext wa)) as (p1 & x1 & Hp1).
  destruct (H2 x1) as (p2 & x2 & Hp2).
  destruct (H3 x2) as (p3 & x3 & Hp3).
  destruct (H4 x3) as (p4 & x4 & Hp4).
  destruct (H5 x4) as (p5 & x5 & Hp5).
  do 2 eexists.
  unfold __init__. unfold bind at 1. unfold lift. rewrite Htimer.
  unfold bind at 1. rewrite Ha.
  unfold bind at 1. rewrite (call_eq (ConsolePage C _) wa _ _ Hp1).
  cbn [ext trace].
  unfold bind at 1.
  rewrite (call_eq (AdminSetupPage C) (mkWorld x1 (trace wa)) _ _ Hp2). cbn [ext trace].
  unfold bind at 1.
  rewrite (call_eq (SetupPage C) (mkWorld x2 (trace wa)) _ _ Hp3). cbn [ext trace].
  unfold bind at 1.
  rewrite (call_eq (DBTableBrowsePage C) (mkWorld x3 (trace wa)) _ _ Hp4). cbn [ext trace].
  unfold bind at 1.
  rewrite (call_eq (DBQueryPage C) (mkWorld x4 (trace wa)) _ _ Hp5). cbn [ext trace].
  unfold bind at 1. rewrite define_app_eq. reflexivity.
Qed.

(** C9. The timer interval is the configured ['capturer.system.timer']
    (seconds) times 1000 (milliseconds): 1000 when the key is absent, [s *
    1000] for an integer [s], the float product for a float; and that value
    is the [interval] of the [dcc.Interval] in the layout the constructor
    installs. *)
Theorem system_timer_is_seconds_times_1000
    (w : W) (self : DashAppTop C) (w' : W) :
  __init__ C w = (Ret self, w') ->
  (CONFIG C !! "capturer.system.timer" = None -> SYSTEM_TIMER self = PyInt 1000)
  /\ (forall s : Z, CONFIG C !! "capturer.system.timer" = Some (PyInt s) ->
        SYSTEM_TIMER self = PyInt (s * 1000))
  /\ (forall s : float, CONFIG C !! "capturer.system.timer" = Some (PyFloat s) ->
        SYSTEM_TIMER self = PyFloat (PrimFloat.mul s 1000%float))
  /\ In (LayoutSet (app_layout (SYSTEM_TIMER self))) (trace w')
  /\ interval_of "system_interval" (app_layout (SYSTEM_TIMER self)) =
       Some (SYSTEM_TIMER self).
Proof.
  intros H. destruct (init_inv _ _ _ H) as (Htimer & _ & _ & _ & _ & _ & _ & Htrace).
  unfold CONFIG_get in Htimer.
  repeat split.
  - intros Hcfg. rewrite Hcfg in Htimer. now injection Htimer as <-.
  - intros s Hcfg. rewrite Hcfg in Htimer. now injection Htimer as <-.
  - intros s Hcfg. rewrite Hcfg in Htimer. now injection Htimer as <-.
  - rewrite Htrace. apply in_or_app. right. now left.
Qed.

(** C10. After construction, [self.auth] holds a [BasicAuth] (around
    [authorization_function]) exactly when the ['capturer.web.auth'] flag
    is true and [DAO.count_accounts()] is positive; with the flag true and
    no account, [self.auth] stays [None]. *)
Theorem auth_installed_iff_enabled_and_accounts
    (w : W) (self : DashAppTop C) (w' : W) :
  __init__ C w = (Ret self, w') ->
  (is_Some (auth self) <->
     truthy (CONFIG_get C "capturer.web.auth" (PyBool false)) = true
     /\ exists n, fst (count_accounts C (ext w)) = Ret n /\ 0 < n)
  /\ (forall a, auth self = Some a -> auth_func a = authorization_function C)
  /\ (truthy (CONFIG_get C "capturer.web.auth" (PyBool false)) = true ->
      forall n, fst (count_accounts C (ext w)) = Ret n -> n <= 0 ->
      auth self = None).
Proof.
  intros H. destruct (init_inv _ _ _ H) as (_ & (wa & Hauth) & _).
  rewrite setup_authentication_eq in Hauth.
  destruct (truthy _).
  - destruct (count_accounts C (ext w)) as [[n|e] x]; [|discriminate Hauth].
    injection Hauth as Ha _. cbn [fst]. rewrite <- Ha.
    destruct (Z.gtb_spec n 0) as [Hn|Hn].
    + split; [split|split].
      * intros _. split; [reflexivity|]. exists n. split; [reflexivity|lia].
      * intros _. now eexists.
      * now intros a [= <-].
      * intros _ m [= <-] Hm. lia.
    + split; [split|split].
      * intros [a Hsome]. discriminate Hsome.
      * intros [_ (m & [= <-] & Hm)]. lia.
      * intros a Hsome. discriminate Hsome.
      * reflexivity.
  - injection Hauth as Ha _. rewrite <- Ha.
    split; [split|split].
    + intros [a Hsome]. discriminate Hsome.
    + intros [Hf _]. discriminate Hf.
    + intros a Hsome. discriminate Hsome.
    + intros Hf. discriminate Hf.
Qed.

End Construction.

(** ** The router *)

Section Router.

Variable C : Collaborators.

#[local] Abbreviation W := (World (E C) (CallbackTypes C)).

Lemma eq_str_true (pathname : PyVal) (literal : string) :
  eq_str pathname literal = true -> pathname = PyStr literal.
Proof.
  destruct pathname; cbn; try discriminate.
  intros H. apply String.eqb_eq in H. now subst.
Qed.

(** A registered path selects the [layout()] of its own page. *)
Lemma dispatch_registered (self : DashAppTop C) pathname page :
  In (pathname, page) (page_registry self) ->
  dispatch self pathname = call (layout page).
Proof.
  cbn. intros H.
  repeat (destruct H as [[= <- <-]|H]; [reflexivity|]).
  destruct H.
Qed.

(** Any other path selects the fixed message. *)
Lemma dispatch_unregistered (self : DashAppTop C) pathname :
  (forall page, ~ In (pathname, page) (page_registry self)) ->
  dispatch self pathname = ret (Text "404 Page Error! Please choose a link").
Proof.
  intros H. unfold dispatch.
  repeat match goal with
  | |- context [eq_str pathname ?l] =>
      destruct (eq_str pathname l) eqn:Heq;
        [ apply eq_str_true in Heq; subst pathname;
          exfalso; eapply H; cbn; eauto 10
        | clear Heq ]
  end.
  reflexivity.
Qed.

(** What a call does, in terms of what [dispatch] does. *)
Lemma display_page_eq (self : DashAppTop C) pathname (w : W) :
  display_page self pathname w =
    match dispatch self pathname w with
    | (Ret content, w') => (Ret (content, _navbar_with_menu self), w')
    | (Raise e, w') =>
        if isinstance_Exception e
        then (Ret (Text "", _navbar_with_menu self),
              mkWorld (ext w') (trace w' ++ Logged ERROR e :: nil))
        else (Raise e, w')
    end.
Proof.
  unfold display_page. run.
  destruct (dispatch self pathname w) as [[content|e] w']; [reflexivity|].
  now destruct (isinstance_Exception e).
Qed.

(** C4, as amended. For every path with a page, if that page's
    [layout()] raises an exception that is an instance of [Exception],
    [display_page] does not raise: it logs the exception as an error and
    returns the empty content with the navigation bar it had already
    taken.  (An exception outside [Exception] is not caught: see the
    counterexample below.) *)
Theorem display_page_catches_render_failure
    (self : DashAppTop C) (pathname : PyVal) (page : PageProvider (E C) (R C))
    (w : W) (e : BaseException) (x' : E C) :
  In (pathname, page) (page_registry self) ->
  layout page (ext w) = (Raise e, x') ->
  isinstance_Exception e = true ->
  display_page self pathname w =
    (Ret (Text "", _navbar_with_menu self),
     mkWorld x' (trace w ++ Logged ERROR e :: nil)).
Proof.
  intros Hreg Hlay He.
  rewrite display_page_eq, (dispatch_registered _ _ _ Hreg).
  rewrite (call_eq _ _ _ _ Hlay), He. reflexivity.
Qed.

(** X8. An exception outside [Exception] (an interpreter exit, a keyboard
    interrupt) raised by the page's [layout()] is not the router's to
    catch: [display_page] raises it and logs nothing. *)
Lemma display_page_passes_exit
    (self : DashAppTop C) (pathname : PyVal) (page : PageProvider (E C) (R C))
    (w : W) (e : BaseException) (x' : E C) :
  In (pathname, page) (page_registry self) ->
  layout page (ext w) = (Raise e, x') ->
  isinstance_Exception e = false ->
  display_page self pathname w = (Raise e, mkWorld x' (trace w)).
Proof.
  intros Hreg Hlay He.
  rewrite display_page_eq, (dispatch_registered _ _ _ Hreg).
  rewrite (call_eq _ _ _ _ Hlay), He. reflexivity.
Qed.

(** C5. For each of the six recognised paths, [display_page] returns what
    the [layout()] of the page registered for that path returns, together
    with the navigation bar with the menu (the attribute, which the
    constructor sets to the bar with the five links); no other page is
    rendered and nothing is logged. *)
Theorem display_page_renders_registered_page
    (self : DashAppTop C) (pathname : PyVal) (page : PageProvider (E C) (R C))
    (w : W) (content : Content (R C)) (x' : E C) :
  In (pathname, page) (page_registry self) ->
  layout page (ext w) = (Ret content, x') ->
  display_page self pathname w =
    (Ret (content, _navbar_with_menu self), mkWorld x' (trace w))
  /\ (forall v v', __init__ C v = (Ret self, v') ->
      _navbar_with_menu self = navbar_with_menu).
Proof.
  intros Hreg Hlay. split.
  - rewrite display_page_eq, (dispatch_registered _ _ _ Hreg).
    rewrite (call_eq _ _ _ _ Hlay). reflexivity.
  - intros v v' Hinit. apply (init_inv _ _ _ _ Hinit).
Qed.

(** C6. Routing ['/'] and routing ['/page_console'] are the same
    computation, and what both return is the output of the console page's
    [layout()]: whenever that call returns some content, each of the two
    routes returns that content with the navigation bar with the menu,
    after that one call and nothing else. *)
Theorem display_page_root_is_console (self : DashAppTop C) (w : W) :
  display_page self (PyStr "/") w = display_page self (PyStr "/page_console") w
  /\ forall content x',
       layout (_console_page self) (ext w) = (Ret content, x') ->
       display_page self (PyStr "/") w =
         (Ret (content, _navbar_with_menu self), mkWorld x' (trace w))
       /\ display_page self (PyStr "/page_console") w =
            (Ret (content, _navbar_with_menu self), mkWorld x' (trace w)).
Proof.
  assert (Hroot : dispatch self (PyStr "/") = call (layout (_console_page self)))
    by reflexivity.
  assert (Hconsole : dispatch self (PyStr "/page_console") =
                       call (layout (_console_page self))) by reflexivity.
  split.
  - now rewrite !display_page_eq, Hroot, Hconsole.
  - intros content x' Hlay.
    rewrite !display_page_eq, Hroot, Hconsole, (call_eq _ _ _ _ Hlay).
    now split.
Qed.

(** C7. For every pathname that is none of the recognised paths,
    [display_page] returns the fixed message with the navigation bar with
    the menu, renders no page and logs nothing; on a constructed
    application that bar is the one with the five links, and it is not the
    other bar the class builds, the one without a menu. *)
Theorem display_page_unknown_path (self : DashAppTop C) (pathname : PyVal) (w : W) :
  (forall page, ~ In (pathname, page) (page_registry self)) ->
  display_page self pathname w =
    (Ret (Text "404 Page Error! Please choose a link", _navbar_with_menu self), w)
  /\ (forall v v', __init__ C v = (Ret self, v') ->
      _navbar_with_menu self = navbar_with_menu
      /\ _navbar_with_menu self <> _navbar_simple self).
Proof.
  intros H. split.
  - rewrite display_page_eq, (dispatch_unregistered _ _ H). reflexivity.
  - intros v v' Hinit.
    destruct (init_inv _ _ _ _ Hinit) as (_ & _ & _ & _ & Hmenu & Hsimple & _).
    rewrite Hmenu, Hsimple. split; [reflexivity|discriminate].
Qed.

End Router.

(** ** The system timer *)

Section Timer.

Variable C : Collaborators.

#[local] Abbreviation W := (World (E C) (CallbackTypes C)).

(** C8. For every tick count [n] and every pathname, a call of
    [dash_system_timer] hands exactly one event, [TIMER], to the callback
    manager, whatever the manager then does; when the manager returns, the
    call returns the tuple [(n,)] with [n] as it was given, and when the
    manager raises, so does the call. *)
Theorem dash_system_timer_fires_once_and_echoes
    (self : DashAppTop C) (n pathname : PyVal) (w : W) :
  trace (snd (dash_system_timer self n pathname w)) =
    (trace w ++ Fired (TIMER C) :: nil)%list
  /\ (forall x', fire_event C (TIMER C) (ext w) = (Ret tt, x') ->
      dash_system_timer self n pathname w =
        (Ret (n :: nil), mkWorld x' (trace w ++ Fired (TIMER C) :: nil)))
  /\ (forall e x', fire_event C (TIMER C) (ext w) = (Raise e, x') ->
      dash_system_timer self n pathname w =
        (Raise e, mkWorld x' (trace w ++ Fired (TIMER C) :: nil))).
Proof.
  unfold dash_system_timer. run.
  destruct (fire_event C (TIMER C) (ext w)) as [[[]|e] x]; cbn [ext trace fst snd].
  - split; [reflexivity|]. split.
    + now intros x' [= <-].
    + intros e x' Heq. discriminate Heq.
  - split; [reflexivity|]. split.
    + intros x' Heq. discriminate Heq.
    + now intros e' x' [= <- <-].
Qed.

End Timer.

(** ** The deployment, run *)

Lemma demo_init : __init__ Demo.C Demo.w0 = (Ret Demo.self, Demo.w1).
Proof. reflexivity. Qed.

Lemma demo_init_unconfigured :
  __init__ Demo.C0 Demo.w0 = (Ret Demo.self0, Demo.w1_0).
Proof. reflexivity. Qed.

Lemma system_timer_is_seconds_times_1000_witness :
  SYSTEM_TIMER Demo.self = PyInt (2 * 1000)
  /\ SYSTEM_TIMER Demo.self0 = PyInt 1000.
Proof.
  split.
  - apply (proj1 (proj2 (system_timer_is_seconds_times_1000 Demo.C
                           Demo.w0 Demo.self Demo.w1 demo_init))).
    reflexivity.
  - apply (proj1 (system_timer_is_seconds_times_1000 Demo.C0
                    Demo.w0 Demo.self0 Demo.w1_0 demo_init_unconfigured)).
    reflexivity.
Defined.

Lemma auth_installed_iff_enabled_and_accounts_witness :
  is_Some (auth Demo.self).
Proof.
  apply (proj1 (auth_installed_iff_enabled_and_accounts Demo.C
                  Demo.w0 Demo.self Demo.w1 demo_init)).
  split; [reflexivity|]. exists 2. split; [reflexivity|lia].
Defined.

Lemma display_page_catches_render_failure_witness :
  display_page Demo.self (PyStr "/page_schedule") Demo.w0 =
    (Ret (Text "", navbar_with_menu),
     mkWorld 0%nat (Logged ERROR (RuntimeError "no schedule table") :: nil)).
Proof.
  apply (display_page_catches_render_failure Demo.C Demo.self
           (PyStr "/page_schedule") Demo.broken_page Demo.w0
           (RuntimeError "no schedule table") 0%nat).
  - cbn. tauto.
  - reflexivity.
  - reflexivity.
Defined.

(** C4, as first stated (any exception raised by the matched page's
    [layout()] is caught), fails: the setup page of this application is
    interrupted from the keyboard while it renders, and [display_page]
    raises [KeyboardInterrupt] instead of returning. *)
Lemma display_page_catches_render_failure_counterexample :
  In (PyStr "/page_setup", Outage.interrupted_page)
     (page_registry Outage.self_interrupted)
  /\ layout Outage.interrupted_page (ext Demo.w0) = (Raise KeyboardInterrupt, 1%nat)
  /\ display_page Outage.self_interrupted (PyStr "/page_setup") Demo.w0 =
       (Raise KeyboardInterrupt, mkWorld 1%nat nil)
  /\ (forall content nav_content w',
        display_page Outage.self_interrupted (PyStr "/page_setup") Demo.w0 <>
          (Ret (content, nav_content), w')).
Proof.
  split; [cbn; tauto|]. split; [reflexivity|]. split; [reflexivity|].
  intros content nav_content w' H. discriminate H.
Qed.

Lemma display_page_renders_registered_page_witness :
  display_page Demo.self (PyStr "/page_db_query") Demo.w0 =
    (Ret (Rendered "query", navbar_with_menu), Demo.w0).
Proof.
  apply (display_page_renders_registered_page Demo.C Demo.self
           (PyStr "/page_db_query") (Demo.page "query") Demo.w0
           (Rendered "query") 0%nat).
  - cbn. tauto.
  - reflexivity.
Defined.

Lemma display_page_unknown_path_witness :
  display_page Demo.self (PyStr "/page_admin") Demo.w0 =
    (Ret (Text "404 Page Error! Please choose a link", navbar_with_menu), Demo.w0).
Proof.
  apply (display_page_unknown_path Demo.C Demo.self (PyStr "/page_admin") Demo.w0).
  intros page H. cbn in H.
  repeat (destruct H as [H|H]; [discriminate H|]).
  exact H.
Defined.

Lemma dash_system_timer_fires_once_and_echoes_witness :
  dash_system_timer Demo.self (PyInt 7) (PyStr "/page_console") Demo.w0 =
    (Ret (PyInt 7 :: nil), mkWorld 1%nat (Fired Demo.Timer :: nil)).
Proof.
  apply (dash_system_timer_fires_once_and_echoes Demo.C Demo.self
           (PyInt 7) (PyStr "/page_console") Demo.w0).
  reflexivity.
Defined.

(** ** More on the authentication gate *)

Section AuthGateEdges.

Variable C : Collaborators.

#[local] Abbreviation W := (World (E C) (CallbackTypes C)).

(** A stored [bytes] value is read back whole. *)
Lemma stored_bytes_of_bytes (account : Account) key bs :
  account !! key = Some (PyBytes bs) -> stored_bytes account key = Ret bs.
Proof. intros H. unfold stored_bytes, getitem. now rewrite H. Qed.

(** A stored [None] is read as the empty buffer. *)
Lemma stored_bytes_of_None (account : Account) key :
  account !! key = Some PyNone -> stored_bytes account key = Ret nil.
Proof. intros H. unfold stored_bytes, getitem. now rewrite H. Qed.

(** X1. The account lookup is outside the [try] statement: when
    [DAO.query_account] raises, [authorization_function] raises the same
    exception, whatever its class, and logs nothing. *)
Theorem authorization_lookup_failure_propagates
    (username password : string) (w : W) (e : BaseException) (x1 : E C) :
  query_account C username (ext w) = (Raise e, x1) ->
  authorization_function C username password w =
    (Raise e, mkWorld x1 (trace w)).
Proof.
  intros Hq. now rewrite authorization_function_eq, Hq.
Qed.

(** X2. [authorization_function] returns [True] only when the account
    exists, both stored fields were read, and [is_correct_password]
    returned [True] for them and the supplied password. *)
Theorem authorization_accepts_only_verified
    (username password : string) (w : W) :
  fst (authorization_function C username password w) = Ret true ->
  exists account x1 salt correct,
    query_account C username (ext w) = (Ret (Some account), x1)
    /\ stored_bytes account "misc" = Ret salt
    /\ stored_bytes account "password" = Ret correct
    /\ fst (is_correct_password C salt correct password x1) = Ret true.
Proof.
  rewrite authorization_function_eq.
  destruct (query_account C username (ext w)) as [[[account|]|e] x1];
    [|discriminate|discriminate].
  rewrite read_credentials_eq.
  destruct (stored_bytes account "misc") as [salt|e1] eqn:Hs.
  - destruct (stored_bytes account "password") as [correct|e2] eqn:Hc.
    + cbn [fst]. intros Hok. now exists account, x1, salt, correct.
    + now destruct (isinstance_Exception e2).
  - now destruct (isinstance_Exception e1).
Qed.

(** X3. Stored [bytes] reach the verification routine byte for byte: with
    a salt [s] and a hash [h] stored as bytes, the call returns what
    [is_correct_password(s, h, password)] returns. *)
Theorem authorization_verifies_stored_bytes
    (username password : string) (w : W)
    (account : Account) (x1 : E C) (s h : bytes) :
  query_account C username (ext w) = (Ret (Some account), x1) ->
  account !! "misc" = Some (PyBytes s) ->
  account !! "password" = Some (PyBytes h) ->
  authorization_function C username password w =
    (fst (is_correct_password C s h password x1),
     mkWorld (snd (is_correct_password C s h password x1)) (trace w)).
Proof.
  intros Hq Hs Hh.
  rewrite authorization_function_eq, Hq, read_credentials_eq.
  now rewrite (stored_bytes_of_bytes _ _ _ Hs), (stored_bytes_of_bytes _ _ _ Hh).
Qed.

(** X4. A stored [None] is not a malformed field: [io.BytesIO(None)] is
    the empty buffer, so an account whose salt is [None] is verified with
    the empty salt, and no warning is logged. *)
Theorem authorization_reads_null_salt_as_empty
    (username password : string) (w : W)
    (account : Account) (x1 : E C) (h : bytes) :
  query_account C username (ext w) = (Ret (Some account), x1) ->
  account !! "misc" = Some PyNone ->
  account !! "password" = Some (PyBytes h) ->
  authorization_function C username password w =
    (fst (is_correct_password C nil h password x1),
     mkWorld (snd (is_correct_password C nil h password x1)) (trace w)).
Proof.
  intros Hq Hs Hh.
  rewrite authorization_function_eq, Hq, read_credentials_eq.
  now rewrite (stored_bytes_of_None _ _ Hs), (stored_bytes_of_bytes _ _ _ Hh).
Qed.

(** X5. The warning carries the first failure: the salt's when the salt
    cannot be read (the hash is then not looked at), the hash's when only
    the hash cannot be read. *)
Theorem authorization_logs_first_failure
    (username password : string) (w : W) (account : Account) (x1 : E C) :
  query_account C username (ext w) = (Ret (Some account), x1) ->
  (forall e, stored_bytes account "misc" = Raise e ->
     authorization_function C username password w =
       (Ret false, mkWorld x1 (trace w ++ Logged WARNING e :: nil)))
  /\ (forall salt e,
        stored_bytes account "misc" = Ret salt ->
        stored_bytes account "password" = Raise e ->
        authorization_function C username password w =
          (Ret false, mkWorld x1 (trace w ++ Logged WARNING e :: nil))).
Proof.
  intros Hq.
  rewrite authorization_function_eq, Hq, read_credentials_eq.
  split.
  - intros e He. rewrite He.
    now rewrite (stored_bytes_raises_Exception _ _ _ He).
  - intros salt e Hs He. rewrite Hs, He.
    now rewrite (stored_bytes_raises_Exception _ _ _ He).
Qed.

(** X6. A call logs at most one record, a warning, and only when it
    denies: afterwards the trace is as before, or it has one more
    [WARNING] and the call returned [False]. *)
Theorem authorization_logs_only_denials
    (username password : string) (w : W) :
  trace (snd (authorization_function C username password w)) = trace w
  \/ exists e,
       trace (snd (authorization_function C username password w)) =
         (trace w ++ Logged WARNING e :: nil)%list
       /\ fst (authorization_function C username password w) = Ret false.
Proof.
  rewrite authorization_function_eq.
  destruct (query_account C username (ext w)) as [[[account|]|e] x1];
    [|now left|now left].
  rewrite read_credentials_eq.
  destruct (stored_bytes account "misc") as [salt|e1].
  - destruct (stored_bytes account "password") as [correct|e2].
    + now left.
    + destruct (isinstance_Exception e2); [right; now exists e2|now left].
  - destruct (isinstance_Exception e1); [right; now exists e1|now left].
Qed.

End AuthGateEdges.

Lemma authorization_lookup_failure_propagates_witness :
  authorization_function Outage.C_locked "alice" "wonderland" Demo.w0 =
    (Raise (RuntimeError "database is locked"), Demo.w0).
Proof.
  apply (authorization_lookup_failure_propagates Outage.C_locked
           "alice" "wonderland" Demo.w0 (RuntimeError "database is locked") 0%nat).
  reflexivity.
Defined.

Lemma authorization_accepts_only_verified_witness :
  exists account x1 salt correct,
    query_account Demo.C "alice" 0%nat = (Ret (Some account), x1)
    /\ stored_bytes account "misc" = Ret salt
    /\ stored_bytes account "password" = Ret correct
    /\ fst (is_correct_password Demo.C salt correct "wonderland" x1) = Ret true.
Proof.
  apply (authorization_accepts_only_verified Demo.C "alice" "wonderland" Demo.w0).
  reflexivity.
Defined.

Lemma authorization_verifies_stored_bytes_witness :
  authorization_function Demo.C "alice" "looking glass" Demo.w0 =
    (Ret false, Demo.w0).
Proof.
  apply (authorization_verifies_stored_bytes Demo.C "alice" "looking glass"
           Demo.w0 Demo.alice 0%nat
           (list_byte_of_string "NaCl")
           (Demo.toy_hash (list_byte_of_string "NaCl") "wonderland")
           eq_refl eq_refl eq_refl).
Defined.

Lemma authorization_reads_null_salt_as_empty_witness :
  authorization_function Outage.C_null_salt "carol" "rabbit" Demo.w0 =
    (Ret true, Demo.w0).
Proof.
  apply (authorization_reads_null_salt_as_empty Outage.C_null_salt
           "carol" "rabbit" Demo.w0 Outage.carol 0%nat
           (Demo.toy_hash nil "rabbit") eq_refl eq_refl eq_refl).
Defined.

Lemma authorization_logs_first_failure_witness :
  authorization_function Demo.C "mallory" "x" Demo.w0 =
    (Ret false,
     mkWorld 0%nat
       (Logged WARNING
          (TypeError "a bytes-like object is required, not 'str'") :: nil)).
Proof.
  apply (proj1 (authorization_logs_first_failure Demo.C "mallory" "x"
                  Demo.w0 Demo.mallory 0%nat eq_refl)).
  reflexivity.
Defined.

(** ** More on the router *)

Section RouterEdges.

Variable C : Collaborators.

#[local] Abbreviation W := (World (E C) (CallbackTypes C)).

(** The [try] body renders one registered page or yields the fixed
    message. *)
Lemma dispatch_cases (self : DashAppTop C) (pathname : PyVal) :
  (exists page, In (pathname, page) (page_registry self)
                /\ dispatch self pathname = call (layout page))
  \/ dispatch self pathname = ret (Text "404 Page Error! Please choose a link").
Proof.
  unfold dispatch.
  repeat match goal with
  | |- context [eq_str pathname ?l] =>
      destruct (eq_str pathname l) eqn:Heq;
        [ apply eq_str_true in Heq; subst pathname;
          left; eexists; split; [cbn; eauto 10|reflexivity]
        | clear Heq ]
  end.
  now right.
Qed.

(** X7. [display_page] never raises an instance of [Exception], and
    whenever it returns, whatever the path and whether or not the page
    rendered, the navigation bar it returns is the one with the menu. *)
Theorem display_page_outcomes (self : DashAppTop C) (pathname : PyVal) (w : W) :
  match fst (display_page self pathname w) with
  | Ret (_, nav_content) => nav_content = _navbar_with_menu self
  | Raise e => isinstance_Exception e = false
  end.
Proof.
  rewrite display_page_eq.
  destruct (dispatch self pathname w) as [[content|e] w']; [reflexivity|].
  now destruct (isinstance_Exception e) eqn:He.
Qed.

(** X9. A call logs at most one record, an error, and only for a caught
    exception, in which case the content returned is the empty string;
    otherwise the trace is as before. *)
Theorem display_page_logs_only_failures
    (self : DashAppTop C) (pathname : PyVal) (w : W) :
  trace (snd (display_page self pathname w)) = trace w
  \/ exists e,
       isinstance_Exception e = true
       /\ trace (snd (display_page self pathname w)) =
            (trace w ++ Logged ERROR e :: nil)%list
       /\ fst (display_page self pathname w) =
            Ret (Text "", _navbar_with_menu self).
Proof.
  rewrite display_page_eq.
  destruct (dispatch_cases self pathname) as [(page & _ & ->)| ->].
  - unfold call. destruct (layout page (ext w)) as [[content|e] x'].
    + now left.
    + destruct (isinstance_Exception e) eqn:He; [right; now exists e|now left].
  - now left.
Qed.

(** X10. Only a string can match: for a pathname that is not a string
    ([None], before the browser has reported a location) the router
    returns the fixed message, renders no page and logs nothing. *)
Theorem display_page_non_string_path
    (self : DashAppTop C) (pathname : PyVal) (w : W) :
  (forall s, pathname <> PyStr s) ->
  display_page self pathname w =
    (Ret (Text "404 Page Error! Please choose a link", _navbar_with_menu self), w).
Proof.
  intros Hns. rewrite display_page_eq.
  destruct (dispatch_cases self pathname) as [(page & Hin & _)| ->];
    [|reflexivity].
  exfalso. cbn in Hin.
  repeat (destruct Hin as [[= <- _]|Hin]; [now eapply Hns|]).
  exact Hin.
Qed.

(** X11. Every link of the navigation bar with the menu, its brand link
    included, is a path the router knows: following it renders a page of
    the registry, never the fixed message. *)
Theorem menu_links_are_routed (self : DashAppTop C) (href : string) :
  In href (nav_hrefs navbar_with_menu) ->
  exists page,
    In (PyStr href, page) (page_registry self)
    /\ dispatch self (PyStr href) = call (layout page).
Proof.
  cbn. intros H.
  repeat (destruct H as [<-|H];
          [eexists; split; [cbn; eauto 10|reflexivity]|]).
  destruct H.
Qed.

End RouterEdges.

Lemma display_page_passes_exit_witness :
  display_page Outage.self_interrupted (PyStr "/page_setup") Demo.w0 =
    (Raise KeyboardInterrupt, mkWorld 1%nat nil).
Proof.
  apply (display_page_passes_exit Demo.C Outage.self_interrupted
           (PyStr "/page_setup") Outage.interrupted_page Demo.w0
           KeyboardInterrupt 1%nat).
  - cbn. tauto.
  - reflexivity.
  - reflexivity.
Defined.

Lemma display_page_non_string_path_witness :
  display_page Demo.self PyNone Demo.w0 =
    (Ret (Text "404 Page Error! Please choose a link", navbar_with_menu), Demo.w0).
Proof.
  apply (display_page_non_string_path Demo.C Demo.self PyNone Demo.w0).
  intros s H. discriminate H.
Defined.

Lemma menu_links_are_routed_witness :
  exists page,
    In (PyStr "/page_db_browser", page) (page_registry Demo.self)
    /\ dispatch Demo.self (PyStr "/page_db_browser") = call (layout page).
Proof.
  apply (menu_links_are_routed Demo.C Demo.self "/page_db_browser").
  cbn. tauto.
Defined.

(** ** More on construction *)

Section ConstructionEdges.

Variable C : Collaborators.

#[local] Abbreviation W := (World (E C) (CallbackTypes C)).

(** The authentication set-up leaves the trace alone. *)
Lemma setup_authentication_trace (w : W) :
  trace (snd (setup_authentication C w)) = trace w.
Proof.
  rewrite setup_authentication_eq.
  destruct (truthy _); [|reflexivity].
  now destruct (count_accounts C (ext w)) as [[n|e] x].
Qed.

(** X12. Every component a registered callback writes, reads or takes as
    state is in the layout installed with it: [_define_app] sets one
    layout and registers two callbacks, and each id their dependencies
    name is the id of a component of that layout, whatever the timer. *)
Theorem define_app_wires_callbacks_to_layout (system_timer : PyVal) (w : W) :
  exists page_layout cb1 cb2,
    trace (snd (_define_app C system_timer w)) =
      (trace w ++ LayoutSet page_layout
               :: CallbackAdded cb1 :: CallbackAdded cb2 :: nil)%list
    /\ forall cb dep,
         In cb (cb1 :: cb2 :: nil) ->
         In dep (cb_dependencies cb) ->
         In (fst dep) (component_ids page_layout).
Proof.
  exists (app_layout system_timer), display_page_callback, dash_system_timer_callback.
  rewrite define_app_eq. split; [reflexivity|].
  intros cb dep [<-|[<-|[]]] Hdep; cbn in Hdep;
    repeat (destruct Hdep as [<-|Hdep]; [cbn; tauto|]); destruct Hdep.
Qed.

(** X13. A construction that fails has installed nothing: when [__init__]
    raises, no layout was set and no callback registered, since
    [_define_app] runs last. *)
Theorem init_failure_installs_nothing (w : W) (e : BaseException) (w' : W) :
  __init__ C w = (Raise e, w') -> trace w' = trace w.
Proof.
  unfold __init__. intros H.
  unfold bind at 1 in H. unfold lift in H.
  destruct (mul_1000 _) as [timer|e0]; [|now injection H as _ <-].
  unfold bind at 1 in H.
  pose proof (setup_authentication_trace w) as Hwa.
  destruct (setup_authentication C w) as [[a|e0] wa];
    cbn [snd] in Hwa; [|now injection H as _ <-].
  unfold bind at 1, call at 1 in H.
  destruct (ConsolePage C _ (ext wa)) as [[p1|e1] x1];
    [|now injection H as _ <-].
  unfold bind at 1, call at 1 in H. cbn [ext trace] in H.
  destruct (AdminSetupPage C x1) as [[p2|e2] x2]; [|now injection H as _ <-].
  unfold bind at 1, call at 1 in H. cbn [ext trace] in H.
  destruct (SetupPage C x2) as [[p3|e3] x3]; [|now injection H as _ <-].
  unfold bind at 1, call at 1 in H. cbn [ext trace] in H.
  destruct (DBTableBrowsePage C x3) as [[p4|e4] x4]; [|now injection H as _ <-].
  unfold bind at 1, call at 1 in H. cbn [ext trace] in H.
  destruct (DBQueryPage C x4) as [[p5|e5] x5]; [|now injection H as _ <-].
  unfold bind at 1 in H. rewrite define_app_eq in H. discriminate H.
Qed.

(** X14. When the configuration hands back [None], or a mapping, for the
    timer, the product with 1000 is a [TypeError] and the construction
    stops at once: [__init__] raises it before any collaborator is called,
    so nothing has changed. *)
Theorem init_rejects_unmultipliable_timer (w : W) :
  CONFIG_get C "capturer.system.timer" (PyInt 1) = PyNone
  \/ (exists items, CONFIG_get C "capturer.system.timer" (PyInt 1) = PyDict items) ->
  exists msg, __init__ C w = (Raise (TypeError msg), w).
Proof.
  intros [Hcfg|[items Hcfg]]; unfold __init__, bind at 1, lift;
    rewrite Hcfg; cbn [mul_1000]; now eexists.
Qed.

(** X15. With authentication switched off the account store is not
    consulted: whatever [DAO.count_accounts] would do, the construction
    goes on to build the console page in the state it started in, and
    succeeds, without authentication, when the page classes return. *)
Theorem init_without_auth_skips_account_store (w : W) (timer : PyVal) :
  truthy (CONFIG_get C "capturer.web.auth" (PyBool false)) = false ->
  mul_1000 (CONFIG_get C "capturer.system.timer" (PyInt 1)) = Ret timer ->
  returns (ConsolePage C (CONFIG_get C "capturer.console.refresh" (PyInt 5))) ->
  returns (AdminSetupPage C) ->
  returns (SetupPage C) ->
  returns (DBTableBrowsePage C) ->
  returns (DBQueryPage C) ->
  exists self w' x1,
    __init__ C w = (Ret self, w')
    /\ auth self = None
    /\ ConsolePage C (CONFIG_get C "capturer.console.refresh" (PyInt 5)) (ext w) =
         (Ret (_console_page self), x1).
Proof.
  intros Hoff Htimer H1 H2 H3 H4 H5.
  destruct (H1 (ext w)) as (p1 & x1 & Hp1).
  destruct (H2 x1) as (p2 & x2 & Hp2).
  destruct (H3 x2) as (p3 & x3 & Hp3).
  destruct (H4 x3) as (p4 & x4 & Hp4).
  destruct (H5 x4) as (p5 & x5 & Hp5).
  do 2 eexists. exists x1.
  unfold __init__. unfold bind at 1. unfold lift. rewrite Htimer.
  unfold bind at 1. rewrite setup_authentication_eq, Hoff.
  unfold bind at 1. rewrite (call_eq (ConsolePage C _) w _ _ Hp1).
  cbn [ext trace].
  unfold bind at 1.
  rewrite (call_eq (AdminSetupPage C) (mkWorld x1 (trace w)) _ _ Hp2). cbn [ext trace].
  unfold bind at 1.
  rewrite (call_eq (SetupPage C) (mkWorld x2 (trace w)) _ _ Hp3). cbn [ext trace].
  unfold bind at 1.
  rewrite (call_eq (DBTableBrowsePage C) (mkWorld x3 (trace w)) _ _ Hp4). cbn [ext trace].
  unfold bind at 1.
  rewrite (call_eq (DBQueryPage C) (mkWorld x4 (trace w)) _ _ Hp5). cbn [ext trace].
  unfold bind at 1. rewrite define_app_eq.
  split; [reflexivity|]. split; [reflexivity|exact Hp1].
Qed.

(** X16. With authentication switched on, a failure of
    [DAO.count_accounts] is a failure of the construction: [__init__]
    raises the same exception, and no page has been built yet. *)
Theorem init_account_store_failure_propagates
    (w : W) (timer : PyVal) (e : BaseException) (x : E C) :
  truthy (CONFIG_get C "capturer.web.auth" (PyBool false)) = true ->
  mul_1000 (CONFIG_get C "capturer.system.timer" (PyInt 1)) = Ret timer ->
  count_accounts C (ext w) = (Raise e, x) ->
  __init__ C w = (Raise e, mkWorld x (trace w)).
Proof.
  intros Hon Htimer Hcount.
  unfold __init__. unfold bind at 1. unfold lift. rewrite Htimer.
  unfold bind at 1. now rewrite setup_authentication_eq, Hon, Hcount.
Qed.

End ConstructionEdges.

Lemma init_failure_installs_nothing_witness :
  trace (snd (__init__ Outage.C_no_schedule Demo.w0)) = trace Demo.w0.
Proof.
  apply (init_failure_installs_nothing Outage.C_no_schedule Demo.w0
           (RuntimeError "no schedule table")).
  reflexivity.
Defined.

Lemma init_rejects_unmultipliable_timer_witness :
  exists msg, __init__ Outage.C_null_timer Demo.w0 = (Raise (TypeError msg), Demo.w0).
Proof.
  apply (init_rejects_unmultipliable_timer Outage.C_null_timer Demo.w0).
  left. reflexivity.
Defined.

Lemma init_without_auth_skips_account_store_witness :
  exists self w' x1,
    __init__ Outage.C_locked_unconfigured Demo.w0 = (Ret self, w')
    /\ auth self = None
    /\ ConsolePage Outage.C_locked_unconfigured
         (CONFIG_get Outage.C_locked_unconfigured "capturer.console.refresh" (PyInt 5))
         (ext Demo.w0) =
         (Ret (_console_page self), x1).
Proof.
  apply (init_without_auth_skips_account_store Outage.C_locked_unconfigured
           Demo.w0 (PyInt 1000)); try reflexivity;
    intros x; do 2 eexists; reflexivity.
Defined.

Lemma init_account_store_failure_propagates_witness :
  __init__ Outage.C_locked Demo.w0 =
    (Raise (RuntimeError "database is locked"), Demo.w0).
Proof.
  apply (init_account_store_failure_propagates Outage.C_locked Demo.w0
           (PyInt 2000) (RuntimeError "database is locked") 0%nat);
    reflexivity.
Defined.

(** ** Ticks in a row, and the life cycle *)

Section TimerRuns.

Variable C : Collaborators.

#[local] Abbreviation W := (World (E C) (CallbackTypes C)).

(** One tick with a manager that returns. *)
Lemma dash_system_timer_returns (self : DashAppTop C) (n pathname : PyVal) (w : W) :
  returns (fire_event C (TIMER C)) ->
  exists x',
    dash_system_timer self n pathname w =
      (Ret (n :: nil), mkWorld x' (trace w ++ Fired (TIMER C) :: nil)).
Proof.
  intros Hfire. unfold dash_system_timer. run.
  destruct (Hfire (ext w)) as ([] & x' & ->). now exists x'.
Qed.

(** X17. Nothing is filtered or coalesced: with a callback manager that
    returns, a run of ticks answers each tick with its own count, in
    order, and hands the manager exactly one [TIMER] event per tick and
    nothing else. *)
Theorem ticks_fire_one_event_each
    (self : DashAppTop C) (ns : list PyVal) (pathname : PyVal) (w : W) :
  returns (fire_event C (TIMER C)) ->
  exists x',
    ticks self ns pathname w =
      (Ret (List.map (fun n => n :: nil) ns),
       mkWorld x' (trace w ++ List.repeat (Fired (TIMER C)) (List.length ns))).
Proof.
  intros Hfire. revert w.
  induction ns as [|n ns IH]; intros w.
  - exists (ext w). cbn. rewrite app_nil_r. now destruct w.
  - cbn [ticks]. unfold bind at 1.
    destruct (dash_system_timer_returns self n pathname w Hfire) as (x1 & ->).
    unfold bind at 1.
    destruct (IH (mkWorld x1 (trace w ++ Fired (TIMER C) :: nil))) as (x' & ->).
    exists x'. unfold ret. cbn [trace List.map List.length List.repeat].
    now rewrite <- app_assoc.
Qed.

End TimerRuns.

Section LifecycleEdges.

Variable C : Collaborators.
Variable RT : Runtime (E C).

#[local] Abbreviation W := (World (E C) (CallbackTypes C)).

(** X18. [stop] never returns: whatever it is called with it ends in an
    exception, and when the log line and the two-second sleep go through
    that exception is [SystemExit(0)], which no [except Exception] clause
    catches; the trace of the module is untouched. *)
Theorem stop_exits_with_zero
    (self : DashAppTop C) (args : list PyVal) (kwargs : list (string * PyVal))
    (w : W) :
  (exists e, fst (stop RT self args kwargs w) = Raise e)
  /\ trace (snd (stop RT self args kwargs w)) = trace w
  /\ (forall x1 x2,
        rospy_loginfo RT "operation agent: the dash flask server is being shutdown"
          (ext w) = (Ret tt, x1) ->
        time_sleep RT 2 x1 = (Ret tt, x2) ->
        stop RT self args kwargs w = (Raise (SystemExit 0), mkWorld x2 (trace w))
        /\ isinstance_Exception (SystemExit 0) = false).
Proof.
  unfold stop, sys_exit. run.
  destruct (rospy_loginfo RT _ (ext w)) as [[[]|e1] x1] eqn:Hlog;
    cbn [ext trace fst snd].
  - destruct (time_sleep RT 2 x1) as [[[]|e2] x2] eqn:Hsleep;
      cbn [ext trace fst snd].
    + split; [now eexists|]. split; [reflexivity|].
      intros y1 y2 [= <-] Hs. rewrite Hsleep in Hs. injection Hs as <-.
      now split.
    + split; [now eexists|]. split; [reflexivity|].
      intros y1 y2 [= <-] Hs. rewrite Hsleep in Hs. discriminate Hs.
  - split; [now eexists|]. split; [reflexivity|].
    intros y1 y2 Hl. discriminate Hl.
Qed.

(** X19. After a construction with the host and the port configured,
    [start] runs the server on that host and that port, with debug mode on
    unless ['capturer.web.debug.mode'] is configured; when the server loop
    returns, whatever it returns, [start] returns [None], and when it
    raises, [start] raises the same. *)
Theorem start_serves_configured_endpoint
    (v : W) (self : DashAppTop C) (v' : W) (host port : PyVal)
    (w : W) (x1 : E C) :
  __init__ C v = (Ret self, v') ->
  CONFIG C !! "capturer.web.host" = Some host ->
  CONFIG C !! "capturer.web.port" = Some port ->
  rospy_loginfo RT "operation agent: starting the dash flask server" (ext w) =
    (Ret tt, x1) ->
  start RT self w =
    (match fst (run_server RT host port
                  (default (PyBool true) (CONFIG C !! "capturer.web.debug.mode"))
                  x1) with
     | Ret _ => Ret tt
     | Raise e => Raise e
     end,
     mkWorld
       (snd (run_server RT host port
               (default (PyBool true) (CONFIG C !! "capturer.web.debug.mode"))
               x1))
       (trace w)).
Proof.
  intros Hinit Hhost Hport Hlog.
  destruct (init_inv _ _ _ _ Hinit) as (_ & _ & Hh & Hp & _).
  unfold CONFIG_get in Hh, Hp. rewrite Hhost in Hh. rewrite Hport in Hp.
  unfold start. run. rewrite Hlog, Hh, Hp. unfold CONFIG_get.
  cbn [ext trace].
  destruct (CONFIG C !! "capturer.web.debug.mode");
    unfold default, id; cbn [from_option];
    match goal with |- context [run_server RT ?h ?p ?d x1] =>
      now destruct (run_server RT h p d x1) as [[r|e] x2] end.
Qed.

End LifecycleEdges.

Lemma ticks_fire_one_event_each_witness :
  exists x',
    ticks Demo.self (PyInt 0 :: PyInt 1 :: PyInt 2 :: nil) (PyStr "/") Demo.w0 =
      (Ret ((PyInt 0 :: nil) :: (PyInt 1 :: nil) :: (PyInt 2 :: nil) :: nil),
       mkWorld x'
         (Fired Demo.Timer :: Fired Demo.Timer :: Fired Demo.Timer :: nil)).
Proof.
  apply (ticks_fire_one_event_each Demo.C Demo.self
           (PyInt 0 :: PyInt 1 :: PyInt 2 :: nil) (PyStr "/") Demo.w0).
  intros x. do 2 eexists. reflexivity.
Defined.

Lemma stop_exits_with_zero_witness :
  stop (C:=Demo.C) Outage.runtime Demo.self nil nil Demo.w0 =
    (Raise (SystemExit 0), mkWorld 21%nat nil).
Proof.
  apply (proj2 (proj2 (stop_exits_with_zero Demo.C Outage.runtime
                         Demo.self nil nil Demo.w0)) 1%nat 21%nat);
    reflexivity.
Defined.

Lemma start_serves_configured_endpoint_witness :
  start (C:=Outage.C_served) Outage.runtime Outage.self_served Demo.w0 =
    (Ret tt, mkWorld 101%nat nil).
Proof.
  apply (start_serves_configured_endpoint Outage.C_served Outage.runtime
           Demo.w0 Outage.self_served Demo.w1_0 (PyStr "0.0.0.0") (PyInt 8050)
           Demo.w0 1%nat);
    reflexivity.
Defined.
